(** * report_locs: the [ReportLocsTool] of [trae_agent/tools/report_locs.py]

    A shallow embedding of the tool's [execute] method together with the
    parts of Python, pydantic and httpx that the method relies on, followed
    by the properties of the method.

    Conventions of the embedding:
    - a Python [str] is a [string]; the texts that matter here are ASCII;
    - the argument mapping and every nested [dict] are [gmap string _];
    - [os.environ] is a [gmap string string];
    - the statements of a method run in an exception-and-state monad [Eff]
      over the [world] (process environment, outcome of building an HTTP
      client, remote service, requests put on the wire); [async]/[await] is
      sequential composition, cancellation by the event loop is not part of
      the model. *)

From Stdlib Require Import ZArith Ascii String Floats.SpecFloat.
From stdpp Require Import base option list gmap strings.

#[local] Set Warnings "-register-all".
#[local] Open Scope string_scope.

(** ** Python values *)

(** The values an argument mapping can hold: what [json.loads] produces from
    the arguments of a tool call ([None], [bool], [int], [float], [str],
    [list], [dict] with [str] keys). *)
Inductive pyval : Type :=
| PNone
| PBool (b : bool)
| PInt (n : Z)
| PFloat (x : spec_float)
| PStr (s : string)
| PList (l : list pyval)
| PDict (d : gmap string pyval).

(** [len(s)] for a [str]. *)
Definition str_len (s : string) : nat := String.length s.

(** Truth value testing, [bool(v)]: [None], [False], numeric zero and empty
    containers are false, everything else is true. *)
Definition truthy (v : pyval) : bool :=
  match v with
  | PNone => false
  | PBool b => b
  | PInt n => negb (n =? 0)%Z
  | PFloat x => match x with S754_zero _ => false | _ => true end
  | PStr s => negb (str_len s =? 0)%nat
  | PList l => negb (length l =? 0)%nat
  | PDict d => negb (size d =? 0)%nat
  end.

(** [not v]. *)
Definition py_not (v : pyval) : bool := negb (truthy v).

(** [d.get(key, default)]. *)
Definition dict_get {V} (d : gmap string V) (key : string) (default : V) : V :=
  match d !! key with
  | Some v => v
  | None => default
  end.

(** Truth value of an optional string, as returned by [os.getenv]. *)
Definition truthy_opt_str (o : option string) : bool :=
  match o with
  | None => false
  | Some s => negb (str_len s =? 0)%nat
  end.

(** ** Strings *)

(** [c in chars]. *)
Fixpoint char_in (c : ascii) (chars : string) : bool :=
  match chars with
  | EmptyString => false
  | String d rest => if Ascii.eqb c d then true else char_in c rest
  end.

(** [s.rstrip(chars)]: [s] without its longest suffix made of characters of
    [chars].  A character is kept as soon as something after it is kept. *)
Fixpoint rstrip (s chars : string) : string :=
  match s with
  | EmptyString => EmptyString
  | String c rest =>
      match rstrip rest chars with
      | EmptyString => if char_in c chars then EmptyString else String c EmptyString
      | kept => String c kept
      end
  end.

(** [c * n] for a one-character string [c]. *)
Fixpoint str_repeat (c : ascii) (n : nat) : string :=
  match n with
  | O => EmptyString
  | S k => String c (str_repeat c k)
  end.

(** [s.endswith(c)] for a single character. *)
Fixpoint ends_with (s : string) (c : ascii) : bool :=
  match s with
  | EmptyString => false
  | String d EmptyString => Ascii.eqb d c
  | String _ rest => ends_with rest c
  end.

(** ** Exceptions *)

(** The exception classes that can occur while [execute] runs.  All of them
    derive from [Exception]; pydantic's [ValidationError] is a [ValueError],
    httpx's [RequestError] (connection errors, timeouts, protocol errors)
    and [HTTPStatusError] are the two kinds of [HTTPError], and httpx's
    [InvalidURL] is a plain [Exception].  [ImportError], [OSError] and its
    subclass [FileNotFoundError] are what building a client raises when a
    proxy needs a package that is not installed or a certificate file cannot
    be read. *)
Inductive pyclass : Type :=
| Exception
| TypeError
| ValueError
| ValidationError
| InvalidURL
| HTTPError
| RequestError
| HTTPStatusError
| ImportError
| OSError
| FileNotFoundError.

#[global] Instance pyclass_eq_dec : EqDecision pyclass.
Proof. solve_decision. Defined.

(** The direct base class, [None] at the root of the modelled hierarchy. *)
Definition base_class (c : pyclass) : option pyclass :=
  match c with
  | Exception => None
  | TypeError => Some Exception
  | ValueError => Some Exception
  | ValidationError => Some ValueError
  | InvalidURL => Some Exception
  | HTTPError => Some Exception
  | RequestError => Some HTTPError
  | HTTPStatusError => Some HTTPError
  | ImportError => Some Exception
  | OSError => Some Exception
  | FileNotFoundError => Some OSError
  end.

Fixpoint subclass_upto (depth : nat) (c d : pyclass) : bool :=
  if bool_decide (c = d) then true
  else match depth, base_class c with
       | S k, Some b => subclass_upto k b d
       | _, _ => false
       end.

(** [issubclass(c, d)]; no chain of bases is longer than two steps. *)
Definition issubclass (c d : pyclass) : bool := subclass_upto 2 c d.

(** A raised exception: its class and [str(e)]. *)
Record exn : Type := Exn { exn_class : pyclass; exn_str : string }.

Definition isinstance (e : exn) (c : pyclass) : bool := issubclass (exn_class e) c.

Inductive result (A : Type) : Type :=
| Return (a : A)
| Raise (e : exn).
Arguments Return {A} a.
Arguments Raise {A} e.

(** ** The payload and the world *)

(** [pathlib.Path(arg)].  The method never reads a path back, so only the
    constructor argument is kept. *)
Record Path : Type := mkPath { path_arg : string }.

(** [type(p).__name__] for a concrete path on a POSIX system. *)
Definition Path_class_name : string := "PosixPath".

(** The Python objects the request payload is made of: [str], [Path],
    [list], and [dict] in insertion order. *)
Inductive pyobj : Type :=
| OStr (s : string)
| OPath (p : Path)
| OList (l : list pyobj)
| ODict (items : list (string * pyobj)).

(** A JSON document, as carried by a request body. *)
Inductive json : Type :=
| JStr (s : string)
| JArr (l : list json)
| JObj (members : list (string * json)).

Record Request : Type := mkRequest {
  req_method : string;
  req_url : string;
  req_json : json
}.

(** A response: its status code and the text that [raise_for_status] gives
    to the [HTTPStatusError] it raises for it (error type, status, reason
    phrase, URL and reference link). *)
Record Response : Type := mkResponse {
  status_code : Z;
  status_error : string
}.

(** What the transport does with one request: it delivers a response or it
    raises. *)
Inductive transport_outcome : Type :=
| Responds (r : Response)
| Fails (e : exn).

(** The world a call runs in: the process environment; what building an
    HTTP client does in this process, given the environment it reads (proxy
    settings, certificate locations): the exception it raises, or [None]
    when the client is built; the behaviour of the transport and remote
    service (given the requests made so far); and the requests put on the
    wire so far, oldest first. *)
Record world : Type := mkWorld {
  environ : gmap string string;
  client_error : gmap string string -> option exn;
  remote : list Request -> Request -> transport_outcome;
  wire : list Request
}.

(** ** Effects *)

Definition Eff (A : Type) : Type := world -> result A * world.

#[global] Instance Eff_ret : MRet Eff := fun A a w => (Return a, w).

#[global] Instance Eff_bind : MBind Eff := fun A B f m w =>
  match m w with
  | (Return a, w') => f a w'
  | (Raise e, w') => (Raise e, w')
  end.

(** [raise e]. *)
Definition raise {A} (e : exn) : Eff A := fun w => (Raise e, w).

(** [try: body  except ... as e: handler e]; the handler re-raises what it
    does not catch. *)
Definition try_except {A} (body : Eff A) (handler : exn -> Eff A) : Eff A :=
  fun w =>
    match body w with
    | (Return a, w') => (Return a, w')
    | (Raise e, w') => handler e w'
    end.

(** [os.getenv(key)]. *)
Definition os_getenv (key : string) : Eff (option string) :=
  fun w => (Return (environ w !! key), w).

(** ** base.py *)

(** Modelled from the spec: [ToolExecResult], declared in [base.py] which is
    not part of the sources at hand.  The spec describes it as a record with
    an [output] string on success or an [error] string on failure; a field
    that is not given to the constructor is [None]. *)
Record ToolExecResult : Type := mkToolExecResult {
  output : option string;
  error : option string
}.

(** ** pydantic models *)

(** [class LocReport(BaseModel)]. *)
Record LocReport : Type := mkLocReport {
  rel_file_path : Path;
  func_name : string
}.

(** One step of the location of a validation error. *)
Inductive loc_item : Type :=
| LIndex (i : nat)
| LField (name : string).

Inductive error_type : Type :=
| list_type
| model_type
| missing
| string_type
| path_type.

Record ErrorDetails : Type := mkErrorDetails {
  err_type : error_type;
  err_loc : list loc_item;
  err_input : pyval
}.

(** A field annotated [str], lax mode: a [str] is taken as it is; numbers,
    booleans and containers are not converted. *)
Definition validate_str (loc : list loc_item) (v : pyval) : list ErrorDetails + string :=
  match v with
  | PStr s => inr s
  | _ => inl [mkErrorDetails string_type loc v]
  end.

(** A field annotated [Path], lax mode: a [str] is given to [Path]. *)
Definition validate_Path (loc : list loc_item) (v : pyval) : list ErrorDetails + Path :=
  match v with
  | PStr s => inr (mkPath s)
  | _ => inl [mkErrorDetails path_type loc v]
  end.

(** A required field of a model validated from the dict [d]. *)
Definition validate_field {A} (validate : list loc_item -> pyval -> list ErrorDetails + A)
    (loc : list loc_item) (v : pyval) (d : gmap string pyval) (name : string)
    : list ErrorDetails + A :=
  match d !! name with
  | Some x => validate (loc ++ [LField name])%list x
  | None => inl [mkErrorDetails missing (loc ++ [LField name])%list v]
  end.

(** Validation of one [LocReport] from a Python value: the value must be a
    dict, both fields are required, keys that name no field are ignored, and
    the errors of all fields are collected. *)
Definition LocReport_validate (loc : list loc_item) (v : pyval) : list ErrorDetails + LocReport :=
  match v with
  | PDict d =>
      match validate_field validate_Path loc v d "rel_file_path",
            validate_field validate_str loc v d "func_name" with
      | inr p, inr f => inr (mkLocReport p f)
      | inl e1, inr _ => inl e1
      | inr _, inl e2 => inl e2
      | inl e1, inl e2 => inl (e1 ++ e2)%list
      end
  | _ => inl [mkErrorDetails model_type loc v]
  end.

(** The items of a [list[LocReport]], item [i] first: every item is
    validated, and the errors of all items are collected. *)
Fixpoint validate_items (i : nat) (l : list pyval) : list ErrorDetails + list LocReport :=
  match l with
  | [] => inr []
  | x :: rest =>
      match LocReport_validate [LIndex i] x, validate_items (S i) rest with
      | inr r, inr rs => inr (r :: rs)
      | inl e, inr _ => inl e
      | inr _, inl es => inl es
      | inl e, inl es => inl (e ++ es)%list
      end
  end.

(** [class LocReports(RootModel)] with [root: list[LocReport]]: the value
    must be a list. *)
Definition LocReports_validate (v : pyval) : list ErrorDetails + list LocReport :=
  match v with
  | PList l => validate_items 0 l
  | _ => inl [mkErrorDetails list_type [] v]
  end.

(** [report.model_dump()], in the default mode ["python"]: a dict of the
    fields in declaration order, each value as the model holds it, so that
    [rel_file_path] stays a [Path]. *)
Definition LocReport_model_dump (report : LocReport) : pyobj :=
  ODict [("rel_file_path", OPath (rel_file_path report));
         ("func_name", OStr (func_name report))].

(** ** JSON encoding *)

(** [json.dumps] as httpx applies it to the [json=] argument, up to the
    document it denotes: [str], [list] and [dict] are encoded, any other
    object raises [TypeError]. *)
Fixpoint json_encode (o : pyobj) : result json :=
  match o with
  | OStr s => Return (JStr s)
  | OPath _ =>
      Raise (Exn TypeError
                 ("Object of type " +:+ Path_class_name +:+ " is not JSON serializable"))
  | OList l =>
      let encoded :=
        (fix encode_list (l : list pyobj) : result (list json) :=
           match l with
           | [] => Return []
           | x :: rest =>
               match json_encode x with
               | Raise e => Raise e
               | Return j =>
                   match encode_list rest with
                   | Raise e => Raise e
                   | Return js => Return (j :: js)
                   end
               end
           end) l in
      match encoded with
      | Return js => Return (JArr js)
      | Raise e => Raise e
      end
  | ODict items =>
      let encoded :=
        (fix encode_items (items : list (string * pyobj)) : result (list (string * json)) :=
           match items with
           | [] => Return []
           | (k, x) :: rest =>
               match json_encode x with
               | Raise e => Raise e
               | Return j =>
                   match encode_items rest with
                   | Raise e => Raise e
                   | Return js => Return ((k, j) :: js)
                   end
               end
           end) items in
      match encoded with
      | Return ms => Return (JObj ms)
      | Raise e => Raise e
      end
  end.

(** ** httpx and the tool *)

Section Tool.
(** Two texts are produced inside the libraries and are taken as they
    come: [str(e)] of a pydantic [ValidationError] with the given errors,
    and the message of the [InvalidURL] that [httpx.URL] raises for a text
    it cannot parse ([None] when it parses). *)
Context (ValidationError_str : list ErrorDetails -> string).
Context (URL_error : string -> option string).

(** [LocReports.model_validate(v)]. *)
Definition LocReports_model_validate (v : pyval) : Eff (list LocReport) :=
  match LocReports_validate v with
  | inr root => mret root
  | inl errors => raise (Exn ValidationError (ValidationError_str errors))
  end.

(** [async with httpx.AsyncClient() as client]: the constructor reads the
    environment and either raises or builds the client; nothing is sent. *)
Definition AsyncClient_new : Eff unit :=
  fun w =>
    match client_error w (environ w) with
    | Some e => (Raise e, w)
    | None => (Return (), w)
    end.

(** [await client.post(url, json=data)]: the client parses the URL, then
    builds the request, which encodes the payload, and only then sends it.
    Exceptions of either preparation step leave the wire untouched. *)
Definition AsyncClient_post (url : string) (data : pyobj) : Eff Response :=
  fun w =>
    match URL_error url with
    | Some msg => (Raise (Exn InvalidURL msg), w)
    | None =>
        match json_encode data with
        | Raise e => (Raise e, w)
        | Return body =>
            let request := mkRequest "POST" url body in
            let w' := mkWorld (environ w) (client_error w) (remote w)
                              (wire w ++ [request])%list in
            match remote w (wire w) request with
            | Responds response => (Return response, w')
            | Fails e => (Raise e, w')
            end
        end
    end.

(** [response.is_success]. *)
Definition is_success (response : Response) : bool :=
  ((200 <=? status_code response) && (status_code response <=? 299))%Z.

(** [response.raise_for_status()]. *)
Definition raise_for_status (response : Response) : Eff unit :=
  if is_success response then mret ()
  else raise (Exn HTTPStatusError (status_error response)).

(** The URL of line 72: [f"{base_url.rstrip('/')}/report"]. *)
Definition report_url (base_url : string) : string :=
  rstrip base_url "/" +:+ "/report".

(** [ReportLocsTool.execute]. *)
Definition execute (arguments : gmap string pyval) : Eff ToolExecResult :=
  let loc_reports_data := dict_get arguments "loc_reports" (PList []) in
  if py_not loc_reports_data then
    mret (mkToolExecResult None (Some "No location reports provided."))
  else
    try_except
      (loc_reports ← LocReports_model_validate loc_reports_data;
       base_url ← os_getenv "LOC_REPORT_URL";
       if negb (truthy_opt_str base_url) then
         mret (mkToolExecResult None (Some "LOC_REPORT_URL environment variable not set."))
       else
         let url := report_url (default "" base_url) in
         let data := ODict [("loc_reports", OList (LocReport_model_dump <$> loc_reports))] in
         client ← AsyncClient_new;
         response ← AsyncClient_post url data;
         _ ← raise_for_status response;
         mret (mkToolExecResult (Some "Location reports sent successfully.") None))
      (fun e =>
         if isinstance e HTTPError then
           mret (mkToolExecResult None
                   (Some ("Failed to send location reports: " +:+ exn_str e)))
         else if isinstance e Exception then
           mret (mkToolExecResult None
                   (Some ("Error processing location reports: " +:+ exn_str e)))
         else raise e).
End Tool.

(** ** The tool's description *)

(** Modelled from the spec: [ToolParameter], declared in [base.py] which is
    not part of the sources at hand.  The spec describes it as the static
    description of an accepted argument: a name, a declared kind, a
    human-readable description, the item schema and a required flag, which
    are the keywords of the constructor call of lines 24-30. *)
Module ToolParameter.
Record t : Type := mk {
  name : string;
  type : string;
  description : string;
  items : option pyval;
  required : bool
}.
End ToolParameter.

(** [LocReport.model_json_schema()]: the JSON schema pydantic derives from
    the two annotated fields of lines 15-16, both required, a [Path] being
    a string of format "path". *)
Definition LocReport_model_json_schema : pyval :=
  PDict {[
    "properties" :=
      PDict {[
        "rel_file_path" :=
          PDict {[ "format" := PStr "path"; "title" := PStr "Rel File Path";
                   "type" := PStr "string" ]};
        "func_name" :=
          PDict {[ "title" := PStr "Func Name"; "type" := PStr "string" ]}
      ]};
    "required" := PList [PStr "rel_file_path"; PStr "func_name"];
    "title" := PStr "LocReport";
    "type" := PStr "object"
  ]}.

(** [LocReports.as_tool_parameter()]. *)
Definition as_tool_parameter : ToolParameter.t :=
  ToolParameter.mk
    "loc_reports"
    "array"
    "List of lines of location reports."
    (Some LocReport_model_json_schema)
    true.

(** [ReportLocsTool.get_name]. *)
Definition get_name : string := "report_locs".

(** [ReportLocsTool.get_description]. *)
Definition get_description : string :=
  "Report the locations of functions or code segments in files. This tool helps track and document the location of important code elements.".

(** [ReportLocsTool.get_parameters]. *)
Definition get_parameters : list ToolParameter.t := [as_tool_parameter].

(** The names a JSON schema lists under [required]. *)
Definition schema_required (schema : pyval) : list string :=
  match schema with
  | PDict members =>
      match members !! "required" with
      | Some (PList names) =>
          omap (fun v => match v with PStr n => Some n | _ => None end) names
      | _ => []
      end
  | _ => []
  end.

(** The [type] a JSON schema declares for the property [key]. *)
Definition schema_property_type (schema : pyval) (key : string) : option string :=
  match schema with
  | PDict members =>
      match members !! "properties" with
      | Some (PDict properties) =>
          match properties !! key with
          | Some (PDict property) =>
              match property !! "type" with
              | Some (PStr t) => Some t
              | _ => None
              end
          | _ => None
          end
      | _ => None
      end
  | _ => None
  end.

(** The payload of line 75 for a validated batch. *)
Definition payload (loc_reports : list LocReport) : pyobj :=
  ODict [("loc_reports", OList (LocReport_model_dump <$> loc_reports))].

(** ** The spec's vocabulary *)

(** A value that maps onto the report schema: a mapping in which both
    [rel_file_path] and [func_name] are present and are text. *)
Definition well_formed_report (v : pyval) : Prop :=
  exists (d : gmap string pyval) (p f : string),
    v = PDict d /\ d !! "rel_file_path" = Some (PStr p) /\ d !! "func_name" = Some (PStr f).

(** The report a well-formed value stands for. *)
Definition report_of (v : pyval) : option LocReport :=
  match v with
  | PDict d =>
      match d !! "rel_file_path", d !! "func_name" with
      | Some (PStr p), Some (PStr f) => Some (mkLocReport (mkPath p) f)
      | _, _ => None
      end
  | _ => None
  end.

(** Every report of every batch that passes validation has a non-empty
    [func_name]. *)
Definition func_names_non_empty : Prop :=
  forall (v : pyval) (batch : list LocReport),
    LocReports_validate v = inr batch -> Forall (fun r => func_name r <> "") batch.

(** A result carries exactly one of its two fields. *)
Definition exactly_one (r : ToolExecResult) : Prop :=
  (is_Some (output r) /\ error r = None) \/ (output r = None /\ is_Some (error r)).

(** The request body of the wire contract for a batch: an object with the
    single member [loc_reports], an array with one object per report, in
    order, whose two members are strings. *)
Definition wire_body (reports : list (string * string)) : json :=
  JObj [("loc_reports",
         JArr ((fun r => JObj [("rel_file_path", JStr (fst r)); ("func_name", JStr (snd r))])
                 <$> reports))].

(** ** Sample inputs *)

(** A rendering of validation errors that only counts them. *)
Definition count_errors (errors : list ErrorDetails) : string :=
  match errors with
  | [] => "no validation error"
  | [_] => "1 validation error for LocReports"
  | _ => "validation errors for LocReports"
  end.

(** A URL parser that accepts every text. *)
Definition any_url (url : string) : option string := None.

Definition response_200 : Response := mkResponse 200 "".

Definition response_500 : Response :=
  mkResponse 500 "Server error '500 Internal Server Error' for url 'https://example.test/report'".

(** A service that answers every request with 200. *)
Definition always_ok (history : list Request) (request : Request) : transport_outcome :=
  Responds response_200.

Definition report_foo : pyval :=
  PDict {[ "rel_file_path" := PStr "a.py"; "func_name" := PStr "foo" ]}.

Definition report_without_func_name : pyval :=
  PDict {[ "rel_file_path" := PStr "b.py" ]}.

Definition report_empty_func_name : pyval :=
  PDict {[ "rel_file_path" := PStr "a.py"; "func_name" := PStr "" ]}.

Definition args_foo : gmap string pyval := {[ "loc_reports" := PList [report_foo] ]}.

Definition env_example : gmap string string :=
  {[ "LOC_REPORT_URL" := "https://example.test/" ]}.

(** A process in which a client can always be built. *)
Definition client_builds (env : gmap string string) : option exn := None.

(** A process without the [socksio] package: a client cannot be built when
    [ALL_PROXY] is set. *)
Definition client_without_socks (env : gmap string string) : option exn :=
  match env !! "ALL_PROXY" with
  | Some _ =>
      Some (Exn ImportError
              "Using SOCKS proxy, but the 'socksio' package is not installed. Make sure to install httpx using `pip install httpx[socks]`.")
  | None => None
  end.

(** A process in which the file named by [SSL_CERT_FILE] does not exist. *)
Definition client_without_cert (env : gmap string string) : option exn :=
  match env !! "SSL_CERT_FILE" with
  | Some _ => Some (Exn FileNotFoundError "[Errno 2] No such file or directory")
  | None => None
  end.

Definition world_example : world := mkWorld env_example client_builds always_ok [].

Definition world_unconfigured : world := mkWorld ∅ client_builds always_ok [].

Definition world_socks : world :=
  mkWorld (<["ALL_PROXY" := "socks5://127.0.0.1:1080"]> env_example)
          client_without_socks always_ok [].

Definition world_bad_cert : world :=
  mkWorld (<["SSL_CERT_FILE" := "/nonexistent/ca.pem"]> env_example)
          client_without_cert always_ok [].

(** A service that answers every request with 500. *)
Definition always_500 (history : list Request) (request : Request) : transport_outcome :=
  Responds response_500.

(** A transport that cannot connect. *)
Definition always_down (history : list Request) (request : Request) : transport_outcome :=
  Fails (Exn RequestError "All connection attempts failed").

Definition world_500 : world := mkWorld env_example client_builds always_500 [].

Definition world_down : world := mkWorld env_example client_builds always_down [].

(** The error every sample batch ends in once the URL is configured. *)
Definition not_serializable : ToolExecResult :=
  mkToolExecResult None
    (Some "Error processing location reports: Object of type PosixPath is not JSON serializable").

(** [execute] with the sample library texts. *)
Definition run (arguments : gmap string pyval) (w : world) : result ToolExecResult * world :=
  execute count_errors any_url arguments w.

(** * Properties *)

(** ** Strings *)

Lemma append_empty (s : string) : EmptyString +:+ s = s.
Proof. reflexivity. Qed.

Lemma append_cons (c : ascii) (s t : string) : String c s +:+ t = String c (s +:+ t).
Proof. reflexivity. Qed.

Lemma rstrip_split (s chars : string) :
  exists tail : string, s = rstrip s chars +:+ tail /\
    forall c, char_in c tail = true -> char_in c chars = true.
Proof.
  induction s as [|c rest IH]; simpl.
  - exists EmptyString. split; [reflexivity | discriminate].
  - destruct IH as (tail & Heq & Htail).
    destruct (rstrip rest chars) as [|k kept] eqn:Hr.
    + rewrite append_empty in Heq. subst tail.
      destruct (char_in c chars) eqn:Hc.
      * exists (String c rest). split; [reflexivity|].
        intros c' Hc'. simpl in Hc'.
        destruct (Ascii.eqb c' c) eqn:Hcc.
        -- apply Ascii.eqb_eq in Hcc. now subst.
        -- now apply Htail.
      * exists rest. split; [reflexivity | assumption].
    + exists tail. split; [|assumption].
      rewrite append_cons. now rewrite <- Heq.
Qed.

Lemma ends_with_cons (c d : ascii) (s : string) :
  s <> EmptyString -> ends_with (String d s) c = ends_with s c.
Proof. destruct s; [congruence | reflexivity]. Qed.

Lemma rstrip_ends (s chars : string) (c : ascii) :
  char_in c chars = true -> ends_with (rstrip s chars) c = false.
Proof.
  intros Hc. induction s as [|d rest IH]; simpl; [reflexivity|].
  destruct (rstrip rest chars) as [|k kept] eqn:Hr.
  - destruct (char_in d chars) eqn:Hd; simpl; [reflexivity|].
    destruct (Ascii.eqb d c) eqn:Hdc; [|reflexivity].
    apply Ascii.eqb_eq in Hdc. congruence.
  - rewrite ends_with_cons by discriminate. exact IH.
Qed.

(** A text made of one character of [chars] only is a run of it. *)
Lemma only_slashes (tail : string) :
  (forall c, char_in c tail = true -> char_in c "/" = true) ->
  tail = str_repeat "/" (String.length tail).
Proof.
  induction tail as [|c rest IH]; simpl; intros H; [reflexivity|].
  assert (Hc : char_in c "/" = true).
  { apply H. now rewrite Ascii.eqb_refl. }
  simpl in Hc. destruct (Ascii.eqb c "/") eqn:E; [|discriminate].
  apply Ascii.eqb_eq in E. subst c. f_equal. apply IH.
  intros c' Hc'. apply H. rewrite Hc'. now destruct (Ascii.eqb c' "/").
Qed.

(** ** Validation *)

Lemma LocReport_validate_report (loc : list loc_item) (v : pyval) (r : LocReport) :
  LocReport_validate loc v = inr r <-> report_of v = Some r.
Proof.
  unfold LocReport_validate, report_of, validate_field, validate_Path, validate_str.
  destruct v as [| | | | | |d]; try (split; discriminate).
  destruct (d !! "rel_file_path") as [[]|]; destruct (d !! "func_name") as [[]|];
    split; intros H; try discriminate; inversion H; reflexivity.
Qed.

Lemma LocReport_validate_errors (loc : list loc_item) (v : pyval) (errors : list ErrorDetails) :
  LocReport_validate loc v = inl errors -> errors <> [].
Proof.
  unfold LocReport_validate, validate_field, validate_Path, validate_str.
  destruct v as [| | | | | |d]; try (intros [= <-]; discriminate).
  destruct (d !! "rel_file_path") as [[]|]; destruct (d !! "func_name") as [[]|];
    intros H; try discriminate; inversion H; discriminate.
Qed.

Lemma well_formed_report_of (v : pyval) :
  well_formed_report v <-> is_Some (report_of v).
Proof.
  unfold well_formed_report, report_of. split.
  - intros (d & p & f & -> & Hp & Hf). rewrite Hp, Hf. eauto.
  - intros [r Hr]. destruct v as [| | | | | |d]; try discriminate.
    destruct (d !! "rel_file_path") as [[]|] eqn:Hp; try discriminate.
    destruct (d !! "func_name") as [[]|] eqn:Hf; try discriminate.
    eauto 10.
Qed.

Lemma LocReport_validate_well_formed (loc : list loc_item) (v : pyval) :
  well_formed_report v <-> exists r, LocReport_validate loc v = inr r.
Proof.
  rewrite well_formed_report_of. unfold is_Some.
  split; intros [r Hr]; exists r; now apply (LocReport_validate_report loc).
Qed.

(** The items pass exactly when each of them stands for a report, and then
    the batch is these reports, one per item, in the order of the items. *)
Lemma validate_items_reports (l : list pyval) (i : nat) (rs : list LocReport) :
  validate_items i l = inr rs <-> Forall2 (fun v r => report_of v = Some r) l rs.
Proof.
  revert i rs. induction l as [|x rest IH]; intros i rs; simpl.
  - split.
    + intros [= <-]. constructor.
    + intros H. inversion H. reflexivity.
  - destruct (LocReport_validate [LIndex i] x) as [e|r] eqn:Hx;
      destruct (validate_items (S i) rest) as [es|rs'] eqn:Hrest.
    + split; [discriminate|]. intros H. inversion H as [|? r' ? rs'' Hr Hrs]; subst.
      apply (LocReport_validate_report [LIndex i]) in Hr. congruence.
    + split; [discriminate|]. intros H. inversion H as [|? r' ? rs'' Hr Hrs]; subst.
      apply (LocReport_validate_report [LIndex i]) in Hr. congruence.
    + split; [discriminate|]. intros H. inversion H as [|? r' ? rs'' Hr Hrs]; subst.
      apply (IH (S i)) in Hrs. congruence.
    + apply LocReport_validate_report in Hx. split.
      * intros [= <-]. constructor; [assumption|]. now apply (IH (S i)).
      * intros H. inversion H as [|? r' ? rs'' Hr Hrs]; subst.
        apply (IH (S i)) in Hrs. congruence.
Qed.

Lemma validate_items_errors (l : list pyval) (i : nat) (errors : list ErrorDetails) :
  validate_items i l = inl errors -> errors <> [].
Proof.
  revert i errors. induction l as [|x rest IH]; intros i errors; simpl; [discriminate|].
  destruct (LocReport_validate [LIndex i] x) as [e|r] eqn:Hx;
    destruct (validate_items (S i) rest) as [es|rs'] eqn:Hrest; intros [= <-].
  - apply LocReport_validate_errors in Hx. destruct e; [congruence | discriminate].
  - now apply LocReport_validate_errors in Hx.
  - now apply IH in Hrest.
Qed.

(** One item that does not map onto the schema fails the whole list. *)
Lemma validate_items_rejects (l : list pyval) (i : nat) (x : pyval) :
  x ∈ l -> ~ well_formed_report x ->
  exists errors, validate_items i l = inl errors /\ errors <> [].
Proof.
  intros Hin Hbad.
  destruct (validate_items i l) as [errors|rs] eqn:Hv.
  - exists errors. split; [reflexivity|]. now apply validate_items_errors in Hv.
  - exfalso. apply validate_items_reports in Hv.
    apply list_elem_of_lookup in Hin as [k Hk].
    destruct (Forall2_lookup_l _ _ _ _ _ Hv Hk) as (r & _ & Hr).
    apply Hbad, well_formed_report_of. eauto.
Qed.

Lemma validate_items_accepts (l : list pyval) (i : nat) :
  Forall well_formed_report l ->
  exists rs, validate_items i l = inr rs /\ length rs = length l.
Proof.
  revert i. induction l as [|x rest IH]; intros i Hall; simpl.
  - exists []. split; reflexivity.
  - inversion Hall as [|? ? Hx Hrest]; subst.
    apply (LocReport_validate_well_formed [LIndex i]) in Hx as [r ->].
    destruct (IH (S i) Hrest) as (rs & -> & Hlen).
    exists (r :: rs). split; [reflexivity|]. simpl. now rewrite Hlen.
Qed.

(** ** Encoding of the payload *)

Lemma json_encode_dump (report : LocReport) :
  json_encode (LocReport_model_dump report)
  = Raise (Exn TypeError "Object of type PosixPath is not JSON serializable").
Proof. reflexivity. Qed.

(** The payload of a batch with at least one report cannot be encoded: its
    first report holds a [Path]. *)
Lemma json_encode_payload (report : LocReport) (reports : list LocReport) :
  json_encode (ODict [("loc_reports", OList (LocReport_model_dump <$> report :: reports))])
  = Raise (Exn TypeError "Object of type PosixPath is not JSON serializable").
Proof. reflexivity. Qed.

(** The payload of an empty batch is the object with an empty array. *)
Lemma json_encode_empty_payload :
  json_encode (ODict [("loc_reports", OList (LocReport_model_dump <$> []))])
  = Return (wire_body []).
Proof. reflexivity. Qed.

(** Every exception of the model is an [Exception]. *)
Lemma isinstance_Exception (e : exn) : isinstance e Exception = true.
Proof. destruct e as [[] ?]; reflexivity. Qed.

(** ** The paths through [execute] *)

Section Paths.
Context (ValidationError_str : list ErrorDetails -> string).
Context (URL_error : string -> option string).

#[local] Abbreviation exec := (execute ValidationError_str URL_error).
#[local] Abbreviation given args := (dict_get args "loc_reports" (PList [])).

(** Lines 59-60: a falsy argument ends the call before anything else. *)
Lemma execute_falsy (args : gmap string pyval) (w : world) :
  truthy (given args) = false ->
  exec args w = (Return (mkToolExecResult None (Some "No location reports provided.")), w).
Proof. intros H. unfold execute, py_not. rewrite H. reflexivity. Qed.

(** Lines 64 and 86-87: a validation error is caught by the last handler. *)
Lemma execute_invalid (args : gmap string pyval) (w : world) (errors : list ErrorDetails) :
  truthy (given args) = true ->
  LocReports_validate (given args) = inl errors ->
  exec args w
  = (Return (mkToolExecResult None
               (Some ("Error processing location reports: " +:+ ValidationError_str errors))),
     w).
Proof.
  intros Ht Hv. unfold execute, py_not. rewrite Ht. simpl.
  unfold try_except, mbind, Eff_bind, LocReports_model_validate. rewrite Hv.
  reflexivity.
Qed.

(** Lines 67-69: without a base URL the call ends after validation. *)
Lemma execute_unconfigured (args : gmap string pyval) (w : world) (root : list LocReport) :
  truthy (given args) = true ->
  LocReports_validate (given args) = inr root ->
  truthy_opt_str (environ w !! "LOC_REPORT_URL") = false ->
  exec args w
  = (Return (mkToolExecResult None (Some "LOC_REPORT_URL environment variable not set.")), w).
Proof.
  intros Ht Hv He. unfold execute, py_not. rewrite Ht. simpl.
  unfold try_except, mbind, Eff_bind, LocReports_model_validate, os_getenv. rewrite Hv.
  simpl. rewrite He. reflexivity.
Qed.

(** Line 78 when the client cannot be built: the exception of the
    constructor goes to the handler of its class, and nothing is sent. *)
Lemma execute_client_fails (args : gmap string pyval) (w : world)
    (root : list LocReport) (base_url : string) (e : exn) :
  truthy (given args) = true ->
  LocReports_validate (given args) = inr root ->
  environ w !! "LOC_REPORT_URL" = Some base_url ->
  truthy_opt_str (Some base_url) = true ->
  client_error w (environ w) = Some e ->
  exec args w
  = (Return (mkToolExecResult None
               (Some ((if isinstance e HTTPError
                       then "Failed to send location reports: "
                       else "Error processing location reports: ") +:+ exn_str e))),
     w).
Proof.
  intros Ht Hv He Hb Hc. unfold execute, py_not. rewrite Ht. simpl.
  unfold try_except, mbind, Eff_bind, LocReports_model_validate, os_getenv. rewrite Hv.
  simpl. rewrite He, Hb. simpl. unfold AsyncClient_new. rewrite Hc.
  destruct (isinstance e HTTPError); [reflexivity|].
  now rewrite isinstance_Exception.
Qed.

(** Lines 72-87 for a batch with at least one report, once the client is
    built: the client raises while it prepares the request, either on the
    URL or on the payload, and the last handler turns that into an error;
    nothing reaches the wire. *)
Lemma execute_unsendable (args : gmap string pyval) (w : world)
    (report : LocReport) (reports : list LocReport) (base_url : string) :
  truthy (given args) = true ->
  LocReports_validate (given args) = inr (report :: reports) ->
  environ w !! "LOC_REPORT_URL" = Some base_url ->
  truthy_opt_str (Some base_url) = true ->
  client_error w (environ w) = None ->
  exec args w
  = (Return (mkToolExecResult None
               (Some ("Error processing location reports: " +:+
                      match URL_error (report_url base_url) with
                      | Some msg => msg
                      | None => "Object of type PosixPath is not JSON serializable"
                      end))),
     w).
Proof.
  intros Ht Hv He Hb Hc. unfold execute, py_not. rewrite Ht. simpl.
  unfold try_except, mbind, Eff_bind, LocReports_model_validate, os_getenv. rewrite Hv.
  simpl. rewrite He, Hb. simpl. unfold AsyncClient_new. rewrite Hc.
  unfold AsyncClient_post.
  destruct (URL_error (report_url base_url)) as [msg|]; reflexivity.
Qed.

(** A truthy value that validates is a list with a first item. *)
Lemma validated_nonempty (v : pyval) (root : list LocReport) :
  truthy v = true -> LocReports_validate v = inr root -> root <> [].
Proof.
  destruct v as [| | | | |l|]; try discriminate.
  destruct l as [|x rest]; [discriminate|].
  intros _ Hv. simpl in Hv.
  destruct (LocReport_validate [LIndex 0] x), (validate_items 1 rest);
    try discriminate; now inversion Hv.
Qed.

(** What [client.post] does once the request is prepared: the request goes
    on the wire and the transport decides. *)
Lemma AsyncClient_post_sent (url : string) (data : pyobj) (body : json) (w : world) :
  URL_error url = None ->
  json_encode data = Return body ->
  AsyncClient_post URL_error url data w
  = (match remote w (wire w) (mkRequest "POST" url body) with
     | Responds response => Return response
     | Fails e => Raise e
     end,
     mkWorld (environ w) (client_error w) (remote w)
       (wire w ++ [mkRequest "POST" url body])).
Proof.
  intros Hu Hd. unfold AsyncClient_post. rewrite Hu, Hd.
  destruct (remote w (wire w) (mkRequest "POST" url body)); reflexivity.
Qed.

(** [raise_for_status] passes exactly the statuses 200 to 299. *)
Lemma raise_for_status_2xx (response : Response) (w : world) :
  raise_for_status response w = (Return (), w) <-> (200 <= status_code response <= 299)%Z.
Proof.
  unfold raise_for_status, is_success.
  destruct (200 <=? status_code response)%Z eqn:H1;
    destruct (status_code response <=? 299)%Z eqn:H2; simpl;
    (split; [intros H; try discriminate | intros [Hlo Hhi]]);
    try reflexivity; lia.
Qed.

(** The call never changes the world: building a client sends nothing,
    and with an argument that reaches the client the payload holds a
    [Path], so that no request is sent. *)
Lemma execute_world (args : gmap string pyval) (w : world) :
  snd (exec args w) = w.
Proof.
  destruct (truthy (given args)) eqn:Ht; [|now rewrite execute_falsy].
  destruct (LocReports_validate (given args)) as [errors|root] eqn:Hv;
    [now rewrite (execute_invalid _ _ errors)|].
  destruct (truthy_opt_str (environ w !! "LOC_REPORT_URL")) eqn:He;
    [|now rewrite (execute_unconfigured _ _ root)].
  destruct (environ w !! "LOC_REPORT_URL") as [base_url|] eqn:Hb; [|discriminate].
  destruct (client_error w (environ w)) as [e|] eqn:Hc;
    [now rewrite (execute_client_fails _ _ root base_url e)|].
  destruct root as [|report reports]; [now apply validated_nonempty in Hv|].
  now rewrite (execute_unsendable _ _ report reports base_url).
Qed.

(** The result of a call depends on the world through the environment and
    through what building a client does with it, not through the service
    or the requests made before. *)
Lemma execute_environ (args : gmap string pyval) (w1 w2 : world) :
  environ w1 = environ w2 ->
  client_error w1 = client_error w2 ->
  fst (exec args w1) = fst (exec args w2).
Proof.
  intros Henv Hclient.
  destruct (truthy (given args)) eqn:Ht; [|now rewrite !execute_falsy].
  destruct (LocReports_validate (given args)) as [errors|root] eqn:Hv;
    [now rewrite !(execute_invalid _ _ errors)|].
  destruct (truthy_opt_str (environ w1 !! "LOC_REPORT_URL")) eqn:He.
  - destruct (environ w1 !! "LOC_REPORT_URL") as [base_url|] eqn:Hb; [|discriminate].
    destruct (client_error w1 (environ w1)) as [e|] eqn:Hc.
    + rewrite (execute_client_fails _ w1 root base_url e) by assumption.
      rewrite (execute_client_fails _ w2 root base_url e);
        [reflexivity | assumption.. | now rewrite <- Henv | assumption
         | now rewrite <- Henv, <- Hclient].
    + destruct root as [|report reports]; [now apply validated_nonempty in Hv|].
      rewrite (execute_unsendable _ w1 report reports base_url) by assumption.
      rewrite (execute_unsendable _ w2 report reports base_url);
        [reflexivity | assumption.. | now rewrite <- Henv | assumption
         | now rewrite <- Henv, <- Hclient].
  - rewrite (execute_unconfigured _ w1 root) by assumption.
    rewrite (execute_unconfigured _ w2 root); [reflexivity | assumption..|].
    now rewrite <- Henv.
Qed.

(** ** The claims about [execute] *)

(** C2. When the [loc_reports] argument is absent, is [None] or is an empty
    list, [execute] returns the error "No location reports provided." and
    leaves the world as it found it, so that no request is put on the wire. *)
Theorem empty_input_is_rejected (args : gmap string pyval) (w : world) :
  args !! "loc_reports" = None \/
  args !! "loc_reports" = Some PNone \/
  args !! "loc_reports" = Some (PList []) ->
  exec args w = (Return (mkToolExecResult None (Some "No location reports provided.")), w).
Proof.
  intros H. apply execute_falsy. unfold dict_get.
  destruct H as [-> | [-> | ->]]; reflexivity.
Qed.

(** C10. When [loc_reports] is bound to any falsy value, a list or not (the
    number 0, the empty string, [False], an empty mapping), [execute]
    returns the empty-input error "No location reports provided.", not a
    validation error, and no request is put on the wire. *)
Theorem falsy_argument_is_empty_input (args : gmap string pyval) (w : world) (v : pyval) :
  args !! "loc_reports" = Some v ->
  truthy v = false ->
  exec args w = (Return (mkToolExecResult None (Some "No location reports provided.")), w).
Proof.
  intros Hv Hf. apply execute_falsy. unfold dict_get. now rewrite Hv.
Qed.

(** C3. When the argument is a list with at least one element that does not
    map onto the report schema, [execute] returns an error, built from the
    validation errors of the list, and no request is put on the wire: the
    whole batch is rejected, whatever its other elements are. *)
Theorem malformed_element_rejects_batch (args : gmap string pyval) (w : world)
    (l : list pyval) (x : pyval) :
  args !! "loc_reports" = Some (PList l) ->
  x ∈ l ->
  ~ well_formed_report x ->
  exists errors, errors <> [] /\
    exec args w
    = (Return (mkToolExecResult None
                 (Some ("Error processing location reports: " +:+ ValidationError_str errors))),
       w).
Proof.
  intros Ha Hin Hbad.
  destruct (validate_items_rejects l 0 x Hin Hbad) as (errors & Hv & Hne).
  exists errors. split; [assumption|].
  apply execute_invalid; unfold dict_get; rewrite Ha.
  - destruct l; [inversion Hin | reflexivity].
  - exact Hv.
Qed.

(** C4. For a non-empty list of well-formed reports, when [LOC_REPORT_URL]
    is not in the environment or is the empty string, [execute] returns the
    error "LOC_REPORT_URL environment variable not set." and no request is
    put on the wire. *)
Theorem missing_configuration (args : gmap string pyval) (w : world) (l : list pyval) :
  args !! "loc_reports" = Some (PList l) ->
  l <> [] ->
  Forall well_formed_report l ->
  environ w !! "LOC_REPORT_URL" = None \/ environ w !! "LOC_REPORT_URL" = Some "" ->
  exec args w
  = (Return (mkToolExecResult None (Some "LOC_REPORT_URL environment variable not set.")), w).
Proof.
  intros Ha Hne Hall Henv.
  destruct (validate_items_accepts l 0 Hall) as (root & Hv & _).
  apply (execute_unconfigured _ _ root); unfold dict_get; rewrite ?Ha.
  - destruct l; [congruence | reflexivity].
  - exact Hv.
  - destruct Henv as [-> | ->]; reflexivity.
Qed.

(** C7. For every argument mapping and every world (environment, outcome
    of building the client, transport behaviour, requests made so far),
    [execute] returns: it raises nothing, and its result carries exactly
    one of [output] and [error]. *)
Theorem execute_returns_one_result (args : gmap string pyval) (w : world) :
  exists (r : ToolExecResult) (w' : world),
    exec args w = (Return r, w') /\ exactly_one r.
Proof.
  assert (Herr : forall msg, exactly_one (mkToolExecResult None (Some msg))).
  { intros msg. right. split; [reflexivity | now exists msg]. }
  destruct (truthy (given args)) eqn:Ht.
  2: { rewrite execute_falsy by assumption. eauto. }
  destruct (LocReports_validate (given args)) as [errors|root] eqn:Hv.
  { rewrite (execute_invalid _ _ errors) by assumption. eauto. }
  destruct (truthy_opt_str (environ w !! "LOC_REPORT_URL")) eqn:He.
  2: { rewrite (execute_unconfigured _ _ root) by assumption. eauto. }
  destruct (environ w !! "LOC_REPORT_URL") as [base_url|] eqn:Hb; [|discriminate].
  destruct (client_error w (environ w)) as [e|] eqn:Hc.
  { rewrite (execute_client_fails _ _ root base_url e) by assumption. eauto. }
  destruct root as [|report reports]; [now apply validated_nonempty in Hv|].
  rewrite (execute_unsendable _ _ report reports base_url) by assumption. eauto.
Qed.

End Paths.

(** ** The endpoint *)

(** C5. For every non-empty base URL, the endpoint is the base URL without
    its trailing slashes, all of them, followed by "/report": the base URL
    is a stem that does not end in a slash followed by a run of slashes, and
    the endpoint is that stem followed by "/report".  In particular
    "https://example.test/" resolves to "https://example.test/report",
    without a doubled slash. *)
Theorem endpoint_strips_trailing_slashes (base_url : string) :
  base_url <> "" ->
  (exists (stem : string) (k : nat),
     base_url = stem +:+ str_repeat "/" k /\
     ends_with stem "/" = false /\
     report_url base_url = stem +:+ "/report") /\
  report_url "https://example.test/" = "https://example.test/report".
Proof.
  intros _. split; [|reflexivity].
  destruct (rstrip_split base_url "/") as (tail & Heq & Htail).
  exists (rstrip base_url "/"), (String.length tail). split; [|split].
  - now rewrite <- (only_slashes tail Htail).
  - now apply rstrip_ends.
  - reflexivity.
Qed.

(** A non-empty start of a run of slashes ends in a slash. *)
Lemma run_prefix_ends (n : nat) (u t : string) :
  u <> "" -> str_repeat "/" n = u +:+ t -> ends_with u "/" = true.
Proof.
  revert u. induction n as [|n IH]; intros u Hu H.
  - destruct u; [congruence | discriminate].
  - destruct u as [|c r]; [congruence|].
    simpl in H. rewrite append_cons in H. injection H as <- Hr.
    destruct r as [|d r']; [reflexivity|].
    rewrite ends_with_cons by discriminate. now apply IH.
Qed.

Lemma ends_with_tail (c : ascii) (r : string) :
  ends_with (String c r) "/" = false -> ends_with r "/" = false.
Proof. destruct r; [reflexivity | now rewrite ends_with_cons]. Qed.

(** The stem of a text is unique: two ways of cutting a run of slashes off
    the end of a text, each leaving no slash at the end, leave the same. *)
Lemma stem_unique (s1 s2 : string) (k1 k2 : nat) :
  s1 +:+ str_repeat "/" k1 = s2 +:+ str_repeat "/" k2 ->
  ends_with s1 "/" = false -> ends_with s2 "/" = false -> s1 = s2.
Proof.
  revert s2. induction s1 as [|c r1 IH]; intros s2 Heq H1 H2.
  - destruct s2 as [|d r2]; [reflexivity|]. exfalso.
    rewrite append_empty in Heq.
    rewrite (run_prefix_ends k1 (String d r2) (str_repeat "/" k2)) in H2;
      [discriminate.. | exact Heq].
  - destruct s2 as [|d r2].
    + exfalso. rewrite append_empty in Heq. symmetry in Heq.
      rewrite (run_prefix_ends k2 (String c r1) (str_repeat "/" k1)) in H1;
        [discriminate.. | exact Heq].
    + rewrite !append_cons in Heq. injection Heq as <- Hr. f_equal.
      apply IH; [exact Hr | now apply ends_with_tail in H1 | now apply ends_with_tail in H2].
Qed.

(** ** What validation accepts *)

(** C9, as amended. A list passes validation exactly when each of its
    elements is a mapping in which [rel_file_path] and [func_name] are both
    text; the batch then has one report per element, in order, and each
    report's [func_name] is the text of its element unchanged.  No text is
    excluded: an empty [func_name] passes. *)
Theorem validation_takes_any_func_name (l : list pyval) (batch : list LocReport) :
  LocReports_validate (PList l) = inr batch <->
  Forall2 (fun x r => exists (d : gmap string pyval) (p f : string),
             x = PDict d /\
             d !! "rel_file_path" = Some (PStr p) /\
             d !! "func_name" = Some (PStr f) /\
             r = mkLocReport (mkPath p) f)
          l batch.
Proof.
  simpl. rewrite validate_items_reports.
  split; intros H; (eapply Forall2_impl; [exact H|]); clear H; intros x r.
  - unfold report_of. destruct x as [| | | | | |d]; try discriminate.
    destruct (d !! "rel_file_path") as [[]|] eqn:Hp; try discriminate.
    destruct (d !! "func_name") as [[]|] eqn:Hf; try discriminate.
    intros [= <-]. eauto 10.
  - intros (d & p & f & -> & Hp & Hf & ->). unfold report_of. now rewrite Hp, Hf.
Qed.

(** C9 fails on a batch of one report whose [func_name] is the empty
    string: the batch passes validation. *)
Lemma empty_func_name_is_accepted : ~ func_names_non_empty.
Proof.
  intros H.
  specialize (H (PList [report_empty_func_name]) [mkLocReport (mkPath "a.py") ""] eq_refl).
  inversion H as [|? ? Hne _]. now apply Hne.
Qed.

(** Validation keeps count and order (the first of the testable properties
    of the spec): the batch of a list of well-formed reports is the list of
    the reports they stand for. *)
Lemma validation_preserves_order (l : list pyval) (batch : list LocReport) :
  LocReports_validate (PList l) = inr batch ->
  length batch = length l /\
  forall (i : nat) (x : pyval), l !! i = Some x -> report_of x = batch !! i.
Proof.
  simpl. rewrite validate_items_reports. intros H. split.
  - symmetry. exact (Forall2_length _ _ _ H).
  - intros i x Hx. destruct (Forall2_lookup_l _ _ _ _ _ H Hx) as (r & -> & Hr).
    exact Hr.
Qed.

(** ** The payload defect *)

(** C1. The claim does not hold of the code.  For the batch of the single
    report [a.py]/[foo] with [LOC_REPORT_URL] set to "https://example.test/",
    validation yields a report whose [rel_file_path] is a [Path];
    [model_dump] keeps it a [Path], not a string; encoding the payload
    raises [TypeError]; [execute] returns that error and the wire stays
    empty, so that no request body is ever produced. *)
Theorem payload_holds_a_path :
  LocReports_validate (PList [report_foo]) = inr [mkLocReport (mkPath "a.py") "foo"] /\
  LocReport_model_dump (mkLocReport (mkPath "a.py") "foo")
  = ODict [("rel_file_path", OPath (mkPath "a.py")); ("func_name", OStr "foo")] /\
  json_encode
    (ODict [("loc_reports", OList [LocReport_model_dump (mkLocReport (mkPath "a.py") "foo")])])
  = Raise (Exn TypeError "Object of type PosixPath is not JSON serializable") /\
  run args_foo world_example = (Return not_serializable, world_example) /\
  wire (snd (run args_foo world_example)) = [].
Proof. repeat split; vm_compute; reflexivity. Qed.

(** C6. The claim does not hold of the code.  For the same valid batch and
    configuration, the result is the same error whether the service would
    answer 200, would answer 500, or could not be reached: the transport is
    never asked, and a 2xx answer cannot lead to success. *)
Theorem result_ignores_the_transport :
  run args_foo world_example = (Return not_serializable, world_example) /\
  run args_foo world_500 = (Return not_serializable, world_500) /\
  run args_foo world_down = (Return not_serializable, world_down).
Proof. repeat split; vm_compute; reflexivity. Qed.

(** C8. The claim does not hold of the code as far as success goes.  Two
    calls in a row with the same valid batch, the same configuration and a
    service that answers 200 give the same result, and the second call
    finds the world as the first one found it, but the result is an error
    both times. *)
Theorem repeated_call_fails_twice :
  let first := run args_foo world_example in
  let second := run args_foo (snd first) in
  fst first = Return not_serializable /\
  fst second = Return not_serializable /\
  snd second = world_example.
Proof. repeat split; vm_compute; reflexivity. Qed.

(** ** Instances *)

Lemma empty_input_is_rejected_witness :
  (∅ : gmap string pyval) !! "loc_reports" = None /\
  run ∅ world_example
  = (Return (mkToolExecResult None (Some "No location reports provided.")), world_example).
Proof.
  split; [reflexivity|].
  apply (empty_input_is_rejected count_errors any_url ∅ world_example).
  left. reflexivity.
Defined.

Lemma falsy_argument_is_empty_input_witness :
  truthy (PInt 0) = false /\
  run {[ "loc_reports" := PInt 0 ]} world_example
  = (Return (mkToolExecResult None (Some "No location reports provided.")), world_example).
Proof.
  split; [reflexivity|].
  apply (falsy_argument_is_empty_input count_errors any_url
           {[ "loc_reports" := PInt 0 ]} world_example (PInt 0));
    reflexivity.
Defined.

(** The falsy values the claim names. *)
Lemma falsy_values :
  truthy (PInt 0) = false /\ truthy (PStr "") = false /\ truthy (PBool false) = false /\
  truthy (PDict ∅) = false /\ truthy (PFloat (S754_zero false)) = false /\
  truthy PNone = false /\ truthy (PList []) = false.
Proof. repeat split; reflexivity. Qed.

Lemma malformed_element_rejects_batch_witness :
  exists errors, errors <> [] /\
    run {[ "loc_reports" := PList [report_foo; report_without_func_name] ]} world_example
    = (Return (mkToolExecResult None
                 (Some ("Error processing location reports: " +:+ count_errors errors))),
       world_example).
Proof.
  apply (malformed_element_rejects_batch count_errors any_url
           {[ "loc_reports" := PList [report_foo; report_without_func_name] ]} world_example
           [report_foo; report_without_func_name] report_without_func_name).
  - reflexivity.
  - apply list_elem_of_further, list_elem_of_here.
  - intros H. apply well_formed_report_of in H. destruct H as [r Hr].
    vm_compute in Hr. discriminate Hr.
Defined.

Lemma missing_configuration_witness :
  run args_foo world_unconfigured
  = (Return (mkToolExecResult None (Some "LOC_REPORT_URL environment variable not set.")),
     world_unconfigured).
Proof.
  apply (missing_configuration count_errors any_url args_foo world_unconfigured [report_foo]).
  - reflexivity.
  - discriminate.
  - constructor; [|constructor].
    exists {[ "rel_file_path" := PStr "a.py"; "func_name" := PStr "foo" ]}, "a.py", "foo".
    repeat split; reflexivity.
  - left. reflexivity.
Defined.

Lemma endpoint_strips_trailing_slashes_witness :
  exists (stem : string) (k : nat),
    "https://example.test///" = stem +:+ str_repeat "/" k /\
    ends_with stem "/" = false /\
    report_url "https://example.test///" = stem +:+ "/report".
Proof.
  apply (endpoint_strips_trailing_slashes "https://example.test///").
  discriminate.
Defined.

Lemma validation_takes_any_func_name_witness :
  LocReports_validate (PList [report_empty_func_name]) = inr [mkLocReport (mkPath "a.py") ""].
Proof.
  apply (validation_takes_any_func_name [report_empty_func_name]
           [mkLocReport (mkPath "a.py") ""]).
  constructor; [|constructor].
  exists {[ "rel_file_path" := PStr "a.py"; "func_name" := PStr "" ]}, "a.py", "".
  repeat split; reflexivity.
Defined.

(** * Further properties of the tool *)

(** ** Every call *)

Section Calls.
Context (ValidationError_str : list ErrorDetails -> string).
Context (URL_error : string -> option string).

#[local] Abbreviation exec := (execute ValidationError_str URL_error).
#[local] Abbreviation given args := (dict_get args "loc_reports" (PList [])).

(** X1. Whatever the arguments and the world, [execute] returns an error
    and leaves the world as it found it: it never reports success and never
    puts a request on the wire.  The error is one of the two fixed texts, or
    begins with "Error processing location reports: ", or, only when
    building the client itself raises an [HTTPError], is the text of the
    handler of line 85 with that exception; no answer or failure of the
    transport is ever reported. *)
Theorem execute_always_reports_an_error (args : gmap string pyval) (w : world) :
  exists msg : string,
    exec args w = (Return (mkToolExecResult None (Some msg)), w) /\
    (msg = "No location reports provided." \/
     msg = "LOC_REPORT_URL environment variable not set." \/
     (exists detail : string, msg = "Error processing location reports: " +:+ detail) \/
     (exists e : exn,
        client_error w (environ w) = Some e /\
        isinstance e HTTPError = true /\
        msg = "Failed to send location reports: " +:+ exn_str e)).
Proof.
  destruct (truthy (given args)) eqn:Ht.
  2: { rewrite execute_falsy by assumption. eauto. }
  destruct (LocReports_validate (given args)) as [errors|root] eqn:Hv.
  { rewrite (execute_invalid _ _ _ _ errors) by assumption. eauto 7. }
  destruct (truthy_opt_str (environ w !! "LOC_REPORT_URL")) eqn:He.
  2: { rewrite (execute_unconfigured _ _ _ _ root) by assumption. eauto 7. }
  destruct (environ w !! "LOC_REPORT_URL") as [base_url|] eqn:Hb; [|discriminate].
  destruct (client_error w (environ w)) as [e|] eqn:Hc.
  { rewrite (execute_client_fails _ _ _ _ root base_url e) by assumption.
    eexists. split; [reflexivity|].
    destruct (isinstance e HTTPError) eqn:Hh; [|eauto 7].
    right. right. right. exists e. auto. }
  destruct root as [|report reports]; [now apply validated_nonempty in Hv|].
  rewrite (execute_unsendable _ _ _ _ report reports base_url) by assumption. eauto 7.
Qed.

(** X2. The result of a call depends on the world through two things only:
    the value of [LOC_REPORT_URL] and what building the client does.  Two
    worlds that agree on both give the same result, whatever else their
    environments hold, however their services behave and whatever was sent
    before. *)
Theorem execute_reads_only_the_url (args : gmap string pyval) (w1 w2 : world) :
  environ w1 !! "LOC_REPORT_URL" = environ w2 !! "LOC_REPORT_URL" ->
  client_error w1 (environ w1) = client_error w2 (environ w2) ->
  fst (exec args w1) = fst (exec args w2).
Proof.
  intros Henv Hclient.
  destruct (truthy (given args)) eqn:Ht; [|now rewrite !execute_falsy].
  destruct (LocReports_validate (given args)) as [errors|root] eqn:Hv;
    [now rewrite !(execute_invalid _ _ _ _ errors)|].
  destruct (truthy_opt_str (environ w1 !! "LOC_REPORT_URL")) eqn:He.
  - destruct (environ w1 !! "LOC_REPORT_URL") as [base_url|] eqn:Hb; [|discriminate].
    destruct (client_error w1 (environ w1)) as [e|] eqn:Hc.
    + rewrite (execute_client_fails _ _ _ w1 root base_url e) by assumption.
      now rewrite (execute_client_fails _ _ _ w2 root base_url e).
    + destruct root as [|report reports]; [now apply validated_nonempty in Hv|].
      rewrite (execute_unsendable _ _ _ w1 report reports base_url) by assumption.
      now rewrite (execute_unsendable _ _ _ w2 report reports base_url).
  - rewrite (execute_unconfigured _ _ _ w1 root) by assumption.
    rewrite (execute_unconfigured _ _ _ w2 root); [reflexivity | assumption..|].
    now rewrite <- Henv.
Qed.

(** X3. A truthy argument that is not a list (a non-empty string, a number
    other than zero, [True], a non-empty mapping) is not taken for a batch:
    validation reports one error, of type [list_type] at the root, the call
    returns it as an error whatever the environment, and nothing is sent. *)
Theorem non_list_argument_is_rejected (args : gmap string pyval) (w : world) (v : pyval) :
  args !! "loc_reports" = Some v ->
  truthy v = true ->
  (forall l, v <> PList l) ->
  exec args w
  = (Return (mkToolExecResult None
               (Some ("Error processing location reports: " +:+
                      ValidationError_str [mkErrorDetails list_type [] v]))),
     w).
Proof.
  intros Ha Ht Hnl. apply execute_invalid; unfold dict_get; rewrite Ha; [exact Ht|].
  destruct v; try reflexivity. now destruct (Hnl l).
Qed.

End Calls.

(** X4. An argument that passes both the truthiness test of line 59 and
    validation is a list with at least one element, and the batch has one
    report per element: the batch that reaches the configuration step is
    never empty. *)
Theorem validated_batch_is_nonempty (v : pyval) (root : list LocReport) :
  truthy v = true ->
  LocReports_validate v = inr root ->
  root <> [] /\ exists l, v = PList l /\ length root = length l.
Proof.
  intros Ht Hv. split; [now apply (validated_nonempty v)|].
  destruct v as [| | | | |l|]; try discriminate.
  exists l. split; [reflexivity|].
  simpl in Hv. apply validate_items_reports in Hv.
  symmetry. exact (Forall2_length _ _ _ Hv).
Qed.

(** X5. The payload of line 75 can be encoded as JSON exactly when the
    batch is empty: with one report or more, encoding raises. *)
Theorem payload_encodes_iff_empty (loc_reports : list LocReport) :
  (exists body, json_encode (payload loc_reports) = Return body) <-> loc_reports = [].
Proof.
  split.
  - intros [body H]. destruct loc_reports as [|report reports]; [reflexivity|].
    unfold payload in H. rewrite json_encode_payload in H. discriminate.
  - intros ->. exists (wire_body []). reflexivity.
Qed.

(** ** What validation reports *)

Lemma LocReport_validate_located (i : nat) (v : pyval) (errors : list ErrorDetails)
    (e : ErrorDetails) :
  LocReport_validate [LIndex i] v = inl errors -> e ∈ errors ->
  head (err_loc e) = Some (LIndex i).
Proof.
  unfold LocReport_validate, validate_field, validate_Path, validate_str.
  destruct v as [| | | | | |d];
    try (intros [= <-] Hin; apply list_elem_of_singleton in Hin; subst e; reflexivity).
  destruct (d !! "rel_file_path") as [[]|]; destruct (d !! "func_name") as [[]|];
    intros H Hin; try discriminate; injection H as <-; simpl in Hin;
    repeat (apply elem_of_cons in Hin as [-> | Hin]; [reflexivity|]);
    inversion Hin.
Qed.

Lemma LocReport_validate_missing (loc : list loc_item) (d : gmap string pyval)
    (name : string) :
  name = "rel_file_path" \/ name = "func_name" ->
  d !! name = None ->
  exists errors, LocReport_validate loc (PDict d) = inl errors /\
    mkErrorDetails missing (loc ++ [LField name])%list (PDict d) ∈ errors.
Proof.
  unfold LocReport_validate, validate_field, validate_Path, validate_str.
  intros [-> | ->] ->.
  - destruct (d !! "func_name") as [[]|]; eexists; (split; [reflexivity|]);
      simpl; apply elem_of_cons; left; reflexivity.
  - destruct (d !! "rel_file_path") as [[]|]; eexists; (split; [reflexivity|]);
      simpl; rewrite ?elem_of_cons; auto.
Qed.

Lemma validate_items_well_formed (l : list pyval) (j : nat) (rs : list LocReport)
    (k : nat) (x : pyval) :
  validate_items j l = inr rs -> l !! k = Some x -> well_formed_report x.
Proof.
  intros Hv Hk. apply validate_items_reports in Hv.
  destruct (Forall2_lookup_l _ _ _ _ _ Hv Hk) as (r & _ & Hr).
  apply well_formed_report_of. eauto.
Qed.

Lemma validate_items_located (l : list pyval) (i0 : nat) (errors : list ErrorDetails) :
  validate_items i0 l = inl errors ->
  forall i : nat,
    (exists e, e ∈ errors /\ head (err_loc e) = Some (LIndex i)) <->
    (exists k x, i = i0 + k /\ l !! k = Some x /\ ~ well_formed_report x).
Proof.
  revert i0 errors. induction l as [|x rest IH]; intros i0 errors; simpl; [discriminate|].
  destruct (LocReport_validate [LIndex i0] x) as [e0|r] eqn:Hx;
    destruct (validate_items (S i0) rest) as [es|rs] eqn:Hrest;
    intros [= <-] i.
  - assert (Hbad : ~ well_formed_report x).
    { intros Hwf. apply (LocReport_validate_well_formed [LIndex i0]) in Hwf as [r Hr].
      congruence. }
    specialize (IH (S i0) es Hrest i). split.
    + intros (e & Hin & Hloc). apply elem_of_app in Hin as [Hin | Hin].
      * rewrite (LocReport_validate_located i0 x e0 e Hx Hin) in Hloc.
        injection Hloc as <-. exists 0, x. split; [lia | auto].
      * destruct (proj1 IH (ex_intro _ e (conj Hin Hloc))) as (k & y & -> & Hk & Hy).
        exists (S k), y. split; [lia | auto].
    + intros (k & y & -> & Hk & Hy). destruct k as [|k].
      * destruct e0 as [|e rest0]; [now apply LocReport_validate_errors in Hx|].
        exists e. split; [apply elem_of_app; left; apply elem_of_cons; auto|].
        rewrite (LocReport_validate_located i0 x _ e Hx); [f_equal; f_equal; lia|].
        apply elem_of_cons; auto.
      * destruct (proj2 IH) as (e & Hin & Hloc).
        { exists k, y. split; [lia | auto]. }
        exists e. split; [apply elem_of_app; auto | assumption].
  - assert (Hbad : ~ well_formed_report x).
    { intros Hwf. apply (LocReport_validate_well_formed [LIndex i0]) in Hwf as [r Hr].
      congruence. }
    split.
    + intros (e & Hin & Hloc).
      rewrite (LocReport_validate_located i0 x e0 e Hx Hin) in Hloc.
      injection Hloc as <-. exists 0, x. split; [lia | auto].
    + intros (k & y & -> & Hk & Hy). destruct k as [|k].
      * destruct e0 as [|e rest0]; [now apply LocReport_validate_errors in Hx|].
        exists e. split; [apply elem_of_cons; auto|].
        rewrite (LocReport_validate_located i0 x _ e Hx); [f_equal; f_equal; lia|].
        apply elem_of_cons; auto.
      * exfalso. apply Hy. exact (validate_items_well_formed rest (S i0) rs k y Hrest Hk).
  - assert (Hgood : well_formed_report x).
    { apply (LocReport_validate_well_formed [LIndex i0]). eauto. }
    specialize (IH (S i0) es Hrest i). split.
    + intros (e & Hin & Hloc).
      destruct (proj1 IH (ex_intro _ e (conj Hin Hloc))) as (k & y & -> & Hk & Hy).
      exists (S k), y. split; [lia | auto].
    + intros (k & y & -> & Hk & Hy). destruct k as [|k].
      * simpl in Hk. injection Hk as <-. contradiction.
      * apply (proj2 IH). exists k, y. split; [lia | auto].
Qed.

Lemma validate_items_missing (l : list pyval) (i0 i : nat) (d : gmap string pyval)
    (name : string) :
  l !! i = Some (PDict d) ->
  name = "rel_file_path" \/ name = "func_name" ->
  d !! name = None ->
  exists errors, validate_items i0 l = inl errors /\
    mkErrorDetails missing [LIndex (i0 + i); LField name] (PDict d) ∈ errors.
Proof.
  revert i0 i. induction l as [|x rest IH]; intros i0 i Hi Hname Hd; [discriminate|].
  simpl. destruct i as [|i].
  - simpl in Hi. injection Hi as ->.
    destruct (LocReport_validate_missing [LIndex i0] d name Hname Hd) as (e0 & -> & Hin).
    replace (i0 + 0) with i0 by lia. simpl in Hin.
    destruct (validate_items (S i0) rest) as [es|rs]; eexists; (split; [reflexivity|]);
      [apply elem_of_app; left|]; exact Hin.
  - simpl in Hi. destruct (IH (S i0) i Hi Hname Hd) as (es & -> & Hin).
    replace (i0 + S i) with (S i0 + i) by lia.
    destruct (LocReport_validate [LIndex i0] x) as [e0|r]; eexists; (split; [reflexivity|]);
      [apply elem_of_app; right|]; exact Hin.
Qed.

(** X6. A key of a report that names no field is ignored: adding it, with
    any value, changes neither whether the report validates nor the report
    that validation yields. *)
Theorem unknown_keys_are_ignored (loc : list loc_item) (d : gmap string pyval)
    (key : string) (x : pyval) (r : LocReport) :
  key <> "rel_file_path" ->
  key <> "func_name" ->
  LocReport_validate loc (PDict (<[key := x]> d)) = inr r <->
  LocReport_validate loc (PDict d) = inr r.
Proof.
  intros H1 H2. rewrite !LocReport_validate_report. unfold report_of.
  now rewrite !lookup_insert_ne by congruence.
Qed.

(** X7. When a list fails validation, the errors point at its malformed
    elements and at nothing else: there is an error located at index [i]
    exactly when the element at index [i] does not map onto the schema.  No
    malformed element goes unreported and no well-formed one is blamed. *)
Theorem errors_point_at_malformed_elements (l : list pyval) (errors : list ErrorDetails)
    (i : nat) :
  LocReports_validate (PList l) = inl errors ->
  (exists e, e ∈ errors /\ head (err_loc e) = Some (LIndex i)) <->
  (exists x, l !! i = Some x /\ ~ well_formed_report x).
Proof.
  intros Hv. simpl in Hv. rewrite (validate_items_located l 0 errors Hv i). split.
  - intros (k & x & -> & Hk & Hx). exists x. auto.
  - intros (x & Hk & Hx). exists i, x. auto.
Qed.

(** X8. A report that lacks one of its two fields fails the list with an
    error of type [missing], located at the index of the report and the
    name of the field, whose input is the report itself. *)
Theorem missing_field_is_reported (l : list pyval) (i : nat) (d : gmap string pyval)
    (name : string) :
  l !! i = Some (PDict d) ->
  name = "rel_file_path" \/ name = "func_name" ->
  d !! name = None ->
  exists errors, LocReports_validate (PList l) = inl errors /\
    mkErrorDetails missing [LIndex i; LField name] (PDict d) ∈ errors.
Proof.
  intros Hi Hname Hd. exact (validate_items_missing l 0 i d name Hi Hname Hd).
Qed.

(** ** More on the endpoint *)

Lemma rstrip_run (k : nat) : rstrip (str_repeat "/" k) "/" = "".
Proof. induction k as [|k IH]; simpl; [reflexivity | now rewrite IH]. Qed.

Lemma rstrip_append_run (s : string) (k : nat) :
  rstrip (s +:+ str_repeat "/" k) "/" = rstrip s "/".
Proof.
  induction s as [|c rest IH].
  - rewrite append_empty. apply rstrip_run.
  - rewrite append_cons. simpl. now rewrite IH.
Qed.

Lemma rstrip_without_trailing (s : string) :
  ends_with s "/" = false -> rstrip s "/" = s.
Proof.
  induction s as [|c rest IH]; intros H; [reflexivity|].
  simpl. destruct rest as [|d rest'].
  - simpl in H. simpl. now rewrite H.
  - rewrite ends_with_cons in H by discriminate. now rewrite (IH H).
Qed.

(** X9. Trailing slashes of the base URL do not count: appending any
    number of slashes to a base URL leaves the endpoint as it was. *)
Theorem endpoint_ignores_trailing_slashes (base_url : string) (k : nat) :
  report_url (base_url +:+ str_repeat "/" k) = report_url base_url.
Proof. unfold report_url. now rewrite rstrip_append_run. Qed.

(** X10. A base URL that does not end in a slash is used as it is, slashes
    inside it included: the endpoint is the base URL followed by "/report". *)
Theorem endpoint_of_url_without_trailing_slash (base_url : string) :
  ends_with base_url "/" = false ->
  report_url base_url = base_url +:+ "/report".
Proof. intros H. unfold report_url. now rewrite rstrip_without_trailing. Qed.

(** ** The description and the method *)

Lemma advertised_required :
  schema_required LocReport_model_json_schema = ["rel_file_path"; "func_name"].
Proof. vm_compute. reflexivity. Qed.

Lemma advertised_types (name : string) :
  name = "rel_file_path" \/ name = "func_name" ->
  schema_property_type LocReport_model_json_schema name = Some "string".
Proof. intros [-> | ->]; vm_compute; reflexivity. Qed.

(** X11. [execute] reads the argument mapping under the name that
    [get_parameters] advertises and nowhere else: two mappings that agree
    on every advertised name give the same result and the same world. *)
Theorem execute_reads_only_the_advertised_parameter
    (ValidationError_str : list ErrorDetails -> string)
    (URL_error : string -> option string)
    (args1 args2 : gmap string pyval) (w : world) :
  (forall p, p ∈ get_parameters ->
             args1 !! ToolParameter.name p = args2 !! ToolParameter.name p) ->
  execute ValidationError_str URL_error args1 w
  = execute ValidationError_str URL_error args2 w.
Proof.
  intros H.
  assert (Hkey : args1 !! "loc_reports" = args2 !! "loc_reports").
  { apply (H as_tool_parameter). apply list_elem_of_singleton. reflexivity. }
  unfold execute, dict_get. now rewrite Hkey.
Qed.

(** X12. The item schema that the tool advertises and the validator agree
    on what is required: a name is listed under [required] exactly when every
    report that lacks it is rejected. *)
Theorem advertised_required_fields_are_enforced (schema : pyval) (name : string) :
  ToolParameter.items as_tool_parameter = Some schema ->
  name ∈ schema_required schema <->
  (forall (loc : list loc_item) (d : gmap string pyval),
     d !! name = None -> exists errors, LocReport_validate loc (PDict d) = inl errors).
Proof.
  intros [= <-]. rewrite advertised_required. split.
  - intros Hin loc d Hd.
    assert (Hname : name = "rel_file_path" \/ name = "func_name").
    { apply elem_of_cons in Hin as [-> | Hin]; [now left|].
      apply list_elem_of_singleton in Hin. now right. }
    destruct (LocReport_validate_missing loc d name Hname Hd) as (errors & He & _).
    eauto.
  - intros Hall.
    destruct (decide (name = "rel_file_path")) as [-> | H1]; [apply elem_of_cons; now left|].
    destruct (decide (name = "func_name")) as [-> | H2];
      [apply elem_of_cons; right; now apply list_elem_of_singleton|].
    exfalso.
    destruct (Hall [] ({[ "rel_file_path" := PStr ""; "func_name" := PStr "" ]}
                         : gmap string pyval))
      as (errors & He).
    + rewrite lookup_insert_ne by congruence. now apply lookup_singleton_ne.
    + vm_compute in He. discriminate He.
Qed.

(** X13. The advertised schema and the validator agree on the types: each
    required property is declared a string, and a report validates only if
    the value it gives for that property is text. *)
Theorem advertised_types_are_enforced (schema : pyval) (name : string)
    (loc : list loc_item) (d : gmap string pyval) (v : pyval) (r : LocReport) :
  ToolParameter.items as_tool_parameter = Some schema ->
  name ∈ schema_required schema ->
  d !! name = Some v ->
  LocReport_validate loc (PDict d) = inr r ->
  schema_property_type schema name = Some "string" /\ exists s, v = PStr s.
Proof.
  intros [= <-] Hin Hd Hv. rewrite advertised_required in Hin.
  assert (Hname : name = "rel_file_path" \/ name = "func_name").
  { apply elem_of_cons in Hin as [-> | Hin]; [now left|].
    apply list_elem_of_singleton in Hin. now right. }
  split; [now apply advertised_types|].
  apply LocReport_validate_report in Hv. unfold report_of in Hv.
  destruct Hname as [-> | ->]; rewrite Hd in Hv.
  - destruct v; try discriminate. eauto.
  - destruct (d !! "rel_file_path") as [[]|]; try discriminate.
    destruct v; try discriminate. eauto.
Qed.

(** ** Instances of the further properties *)

Lemma execute_reads_only_the_url_witness :
  fst (run args_foo world_example)
  = fst (run args_foo
           (mkWorld (<["HOME" := "/root"]> env_example) client_builds always_down [])).
Proof.
  apply (execute_reads_only_the_url count_errors any_url args_foo world_example
           (mkWorld (<["HOME" := "/root"]> env_example) client_builds always_down [])).
  - vm_compute. reflexivity.
  - reflexivity.
Defined.

(** When the client cannot be built, the call reports the exception of the
    constructor: a missing package for a SOCKS proxy, a certificate file
    that does not exist. *)
Lemma client_failure_is_reported :
  run args_foo world_socks
  = (Return (mkToolExecResult None
               (Some "Error processing location reports: Using SOCKS proxy, but the 'socksio' package is not installed. Make sure to install httpx using `pip install httpx[socks]`.")),
     world_socks) /\
  run args_foo world_bad_cert
  = (Return (mkToolExecResult None
               (Some "Error processing location reports: [Errno 2] No such file or directory")),
     world_bad_cert).
Proof. split; vm_compute; reflexivity. Qed.

Lemma non_list_argument_is_rejected_witness :
  run {[ "loc_reports" := PStr "a.py" ]} world_unconfigured
  = (Return (mkToolExecResult None
               (Some "Error processing location reports: 1 validation error for LocReports")),
     world_unconfigured).
Proof.
  apply (non_list_argument_is_rejected count_errors any_url
           {[ "loc_reports" := PStr "a.py" ]} world_unconfigured (PStr "a.py")).
  - reflexivity.
  - reflexivity.
  - discriminate.
Defined.

Lemma validated_batch_is_nonempty_witness :
  [mkLocReport (mkPath "a.py") "foo"] <> [] /\
  exists l, PList [report_foo] = PList l /\
            length [mkLocReport (mkPath "a.py") "foo"] = length l.
Proof.
  apply (validated_batch_is_nonempty (PList [report_foo]) [mkLocReport (mkPath "a.py") "foo"]).
  - reflexivity.
  - vm_compute. reflexivity.
Defined.

Lemma unknown_keys_are_ignored_witness :
  LocReport_validate []
    (PDict (<["line" := PInt 3]> {[ "rel_file_path" := PStr "a.py"; "func_name" := PStr "foo" ]}))
  = inr (mkLocReport (mkPath "a.py") "foo").
Proof.
  apply (unknown_keys_are_ignored []
           {[ "rel_file_path" := PStr "a.py"; "func_name" := PStr "foo" ]}
           "line" (PInt 3) (mkLocReport (mkPath "a.py") "foo")).
  - discriminate.
  - discriminate.
  - vm_compute. reflexivity.
Defined.

Lemma errors_point_at_malformed_elements_witness :
  (exists e,
     e ∈ [mkErrorDetails missing [LIndex 1; LField "func_name"] report_without_func_name] /\
     head (err_loc e) = Some (LIndex 1)) <->
  (exists x, [report_foo; report_without_func_name] !! 1 = Some x /\ ~ well_formed_report x).
Proof.
  apply (errors_point_at_malformed_elements [report_foo; report_without_func_name]
           [mkErrorDetails missing [LIndex 1; LField "func_name"] report_without_func_name] 1).
  vm_compute. reflexivity.
Defined.

Lemma missing_field_is_reported_witness :
  exists errors,
    LocReports_validate (PList [report_foo; report_without_func_name]) = inl errors /\
    mkErrorDetails missing [LIndex 1; LField "func_name"]
      (PDict {[ "rel_file_path" := PStr "b.py" ]}) ∈ errors.
Proof.
  apply (missing_field_is_reported [report_foo; report_without_func_name] 1
           {[ "rel_file_path" := PStr "b.py" ]} "func_name").
  - reflexivity.
  - right. reflexivity.
  - vm_compute. reflexivity.
Defined.

Lemma endpoint_of_url_without_trailing_slash_witness :
  report_url "https://example.test/api" = "https://example.test/api/report".
Proof.
  apply (endpoint_of_url_without_trailing_slash "https://example.test/api").
  reflexivity.
Defined.

Lemma execute_reads_only_the_advertised_parameter_witness :
  run args_foo world_example = run (<["verbose" := PBool true]> args_foo) world_example.
Proof.
  apply (execute_reads_only_the_advertised_parameter count_errors any_url
           args_foo (<["verbose" := PBool true]> args_foo) world_example).
  intros p Hp. apply list_elem_of_singleton in Hp. subst p.
  vm_compute. reflexivity.
Defined.

Lemma advertised_required_fields_are_enforced_witness :
  "func_name" ∈ schema_required LocReport_model_json_schema <->
  (forall (loc : list loc_item) (d : gmap string pyval),
     d !! "func_name" = None -> exists errors, LocReport_validate loc (PDict d) = inl errors).
Proof.
  apply (advertised_required_fields_are_enforced LocReport_model_json_schema "func_name").
  reflexivity.
Defined.

Lemma advertised_types_are_enforced_witness :
  schema_property_type LocReport_model_json_schema "func_name" = Some "string" /\
  exists s, PStr "foo" = PStr s.
Proof.
  apply (advertised_types_are_enforced LocReport_model_json_schema "func_name" []
           {[ "rel_file_path" := PStr "a.py"; "func_name" := PStr "foo" ]}
           (PStr "foo") (mkLocReport (mkPath "a.py") "foo")).
  - reflexivity.
  - vm_compute. apply list_elem_of_further, list_elem_of_here.
  - vm_compute. reflexivity.
  - vm_compute. reflexivity.
Defined.
